(** * ACME Bank chatbot: the Amazon Lex code hooks

    A shallow embedding of the two AWS Lambda handlers of the repository that
    Python can load,

    - [ACMEBankBotAccountOverview.py]  (module [AccountOverview]),
    - [ACMEBankBotTransactionList.py]  (module [TransactionList]),

    and of the little they use of Python, Amazon Lex and Amazon DynamoDB.

    The third file, [AccountOverviewIntent_ValidationFunction.py], is not
    embedded.  Its lines 81 and 90 each leave a parenthesis open, so Python
    rejects the file with SyntaxError when the module is imported: none of its
    functions is ever defined, and no turn sent to it gets a response.

    Python values keep their shape: a slot value is a [str] or [None]
    ([option string]), the [slots] dict is a finite map from slot names to
    slot values, [sessionAttributes] is a dict or JSON null.  Code that can
    raise runs in a small monad [M] which also reads the DynamoDB tables and
    records, in order, every query sent to them; the record of queries is what
    makes "this slot was never validated" a statement about a run. *)

From stdpp Require Import base option list strings gmap fin_maps pretty.

Local Open Scope string_scope.

(** ** Python: exceptions and the handler monad *)

Module Py.

(** The exceptions the two handlers can raise. *)
Inductive exn : Type :=
| Exception (msg : string)      (* raise Exception(msg)                *)
| KeyError (key : string)       (* d[key] on a dict without that key   *)
| IndexError.                   (* l[i] with i out of range            *)

Inductive outcome (A : Type) : Type :=
| Returns (a : A)
| Raises (e : exn).
Global Arguments Returns {A} a.
Global Arguments Raises {A} e.

(** [str(x)] of a [str] or of a stored number. *)
Inductive attr : Type :=
| AttrS (s : string)            (* DynamoDB type S, a Python str        *)
| AttrN (n : Z).                (* DynamoDB type N, a whole Decimal     *)

Definition str (a : attr) : string :=
  match a with
  | AttrS s => s
  | AttrN n => pretty n
  end.

(** [a == 'literal'] for a stored attribute: a number never equals a str. *)
Definition attr_eq_str (a : attr) (s : string) : bool :=
  match a with
  | AttrS s' => bool_decide (s' = s)
  | AttrN _ => false
  end.

End Py.
Export Py.

(** ** Amazon DynamoDB: three tables, queried by key *)

Module DynamoDB.

Record Customer := { cust_CustomerIdentifier : string }.

Record Account := {
  acc_CustomerIdentifier : string;
  acc_AccountIdentifier : string;
  AccountBalance : attr
}.

Record Transaction := {
  tx_AccountIdentifier : string;
  TransactionIdentifier : attr;
  Amount : attr;
  Date : attr;
  Type_ : attr
}.

(** The tables the handlers read, rows in the order a query returns them. *)
Record Tables := {
  ACMEBankCustomer : list Customer;
  ACMEBankAccount : list Account;
  ACMEAccountTransaction : list Transaction
}.

(** One [table.query(KeyConditionExpression = ...)] call: the table and the
    [Key(name).eq(value)] conjuncts, with the Python values they were given. *)
Record Query := {
  TableName : string;
  KeyConditionExpression : list (string * option string)
}.

(** [Key(name).eq(v)] on a row whose key attribute is the string [k]:
    [None] equals no stored key. *)
Definition key_eq (k : string) (v : option string) : bool :=
  bool_decide (v = Some k).

(** The part of a query response the handlers read.  A query is answered in
    one page: [Count] is the number of [Items]. *)
Record QueryResponse (R : Type) := { Count : nat; Items : list R }.
Global Arguments Count {R} _.
Global Arguments Items {R} _.

Definition respond {R : Type} (rows : list R) : QueryResponse R :=
  {| Count := length rows; Items := rows |}.

End DynamoDB.
Export DynamoDB.

(** The handler monad: read the tables, append to the record of queries,
    return or raise. *)
Definition M (A : Type) : Type :=
  Tables → list Query → outcome A * list Query.

Global Instance M_ret : MRet M := λ A a _ tr, (Returns a, tr).

Global Instance M_bind : MBind M := λ A B f m db tr,
  match m db tr with
  | (Returns a, tr') => f a db tr'
  | (Raises e, tr') => (Raises e, tr')
  end.

Definition raise {A : Type} (e : exn) : M A := λ _ tr, (Raises e, tr).

(** [table.query(...)]: the query is recorded, the matching rows come back.
    The store is taken to answer.  A request the service refuses (DynamoDB
    refuses an empty-string key value with ClientError) and a fault of the
    store are outside the model: what is stated about the result of a query
    is stated for the requests the store answers. *)
Definition query {R : Type} (table : Tables → list R) (name : string)
    (cond : list (string * option string)) (matches : R → bool)
    : M (QueryResponse R) :=
  λ db tr,
    (Returns (respond (List.filter matches (table db))),
     (tr ++ [ {| TableName := name; KeyConditionExpression := cond |} ])%list).

(** [d[key]] on a dict. *)
Definition getitem {V : Type} (d : gmap string V) (key : string) : M V :=
  match d !! key with
  | Some v => mret v
  | None => raise (KeyError key)
  end.

(** [l[i]] on a list. *)
Definition index {A : Type} (l : list A) (i : nat) : M A :=
  match l !! i with
  | Some x => mret x
  | None => raise IndexError
  end.

(** [for i in range(n): s = body(i, s)], over the indices still to visit. *)
Fixpoint for_each {S : Type} (body : nat → S → M S) (indices : list nat)
    (s : S) : M S :=
  match indices with
  | [] => mret s
  | i :: rest => s' ← body i s; for_each body rest s'
  end.

Definition for_range {S : Type} (n : nat) (body : nat → S → M S) (s : S) : M S :=
  for_each body (seq 0 n) s.

(** A run of a handler starts with no query made. *)
Definition run {A : Type} (m : M A) (db : Tables) : outcome A * list Query :=
  m db [].

(** ** Amazon Lex: the event and the three responses *)

Module Lex.

(** [event], as far as the handlers read it. *)
Record Event := {
  bot_name : string;                               (* event['bot']['name']            *)
  intent_name : string;                            (* event['currentIntent']['name']  *)
  slots : gmap string (option string);             (* event['currentIntent']['slots'] *)
  sessionAttributes : option (gmap string string); (* event['sessionAttributes']      *)
  invocationSource : string                        (* event['invocationSource']       *)
}.

Record Message := { contentType : string; content : string }.

(** The [dialogAction] dict of a response.  An [ElicitSlot] built without a
    ['message'] key has [None] there. *)
Inductive DialogAction : Type :=
| ElicitSlot (intentName : string) (slots : gmap string (option string))
    (slotToElicit : option string) (message : option Message)
| Delegate (slots : gmap string (option string))
| Close (fulfillmentState : string) (message : Message).

Record Response := {
  resp_sessionAttributes : option (gmap string string);
  dialogAction : DialogAction
}.

End Lex.
Export Lex.

(** ** ACMEBankBotAccountOverview.py

    [logger.debug] calls leave no trace in a response and are left out, here
    and in the other handler. *)

Module AccountOverview.

Definition elicit_slot (slot_to_elicit : string)
    (session_attributes : option (gmap string string)) (intent_name : string)
    (slots : gmap string (option string)) : Response :=
  {| resp_sessionAttributes := session_attributes;
     dialogAction := ElicitSlot intent_name slots (Some slot_to_elicit) None |}.

Definition defer_next_action_to_chatbot
    (session_attributes : option (gmap string string))
    (slots : gmap string (option string)) : Response :=
  {| resp_sessionAttributes := session_attributes;
     dialogAction := Delegate slots |}.

Definition validate_customer_identifier (customer_identifier : option string)
    : M bool :=
  dynamodb_response ←
    query ACMEBankCustomer "ACMEBankCustomer"
      [("CustomerIdentifier", customer_identifier)]
      (λ row, key_eq (cust_CustomerIdentifier row) customer_identifier);
  if bool_decide (Count dynamodb_response = 0) then mret false
  else mret true.

Definition get_account_overview (customer_identifier : option string)
    : M string :=
  dynamodb_response ←
    query ACMEBankAccount "ACMEBankAccount"
      [("CustomerIdentifier", customer_identifier)]
      (λ row, key_eq (acc_CustomerIdentifier row) customer_identifier);
  let num_accounts := Count dynamodb_response in
  if bool_decide (num_accounts = 0) then
    mret "I could not find any accounts for you on our systems. Is there anything else I can help you with?"
  else
    let response_string := "" in
    let account_array := Items dynamodb_response in
    for_range num_accounts (λ i response_string,
      account_object ← index account_array i;
      let account_description :=
        "The balance in account number " +:+ acc_AccountIdentifier account_object
        +:+ " is £" +:+ str (AccountBalance account_object) in
      let response_string := response_string +:+ account_description in
      if bool_decide (i = num_accounts - 1) then
        mret (response_string +:+ ". Is there anything else I can help you with?")
      else
        mret (response_string +:+ ", "))
      response_string.

Definition lambda_handler (event : Event) : M Response :=
  let bot_name := bot_name event in
  let intent_name := intent_name event in
  if bool_decide (bot_name ≠ "ACMEBankBot") then
    raise (Exception "This function can only be used with the ACMEBankBot")
  else if bool_decide (intent_name ≠ "AccountOverview") then
    raise (Exception "This function can only be used with the AccountOverview intent")
  else
    let session_attributes := sessionAttributes event in
    let intent_slots := slots event in
    customer_identifier ← getitem intent_slots "CustomerIdentifier";
    let invocation_source := invocationSource event in
    (* the code after the [if invocation_source == 'DialogCodeHook'] block,
       reached whenever no [return] inside the block was taken *)
    let fulfillment : M Response :=
      account_overview ← get_account_overview customer_identifier;
      mret {| resp_sessionAttributes := session_attributes;
              dialogAction :=
                Close "Fulfilled"
                  {| contentType := "PlainText"; content := account_overview |} |} in
    if bool_decide (invocation_source = "DialogCodeHook") then
      if bool_decide (customer_identifier = None) then
        mret (elicit_slot "CustomerIdentifier" session_attributes intent_name
                intent_slots)
      else
        valid ← validate_customer_identifier customer_identifier;
        if negb valid then
          let intent_slots := <["CustomerIdentifier" := None]> intent_slots in
          mret (defer_next_action_to_chatbot session_attributes intent_slots)
        else fulfillment
    else fulfillment.

End AccountOverview.

(** ** ACMEBankBotTransactionList.py *)

Module TransactionList.

Definition elicit_slot (slot_to_elicit : string)
    (session_attributes : option (gmap string string)) (intent_name : string)
    (slots : gmap string (option string)) : Response :=
  {| resp_sessionAttributes := session_attributes;
     dialogAction := ElicitSlot intent_name slots (Some slot_to_elicit) None |}.

Definition defer_next_action_to_chatbot
    (session_attributes : option (gmap string string))
    (slots : gmap string (option string)) : Response :=
  {| resp_sessionAttributes := session_attributes;
     dialogAction := Delegate slots |}.

Definition validate_customer_identifier (customer_identifier : option string)
    : M bool :=
  dynamodb_response ←
    query ACMEBankCustomer "ACMEBankCustomer"
      [("CustomerIdentifier", customer_identifier)]
      (λ row, key_eq (cust_CustomerIdentifier row) customer_identifier);
  if bool_decide (Count dynamodb_response = 0) then mret false
  else mret true.

Definition validate_account_identifier
    (customer_identifier account_identifier : option string) : M bool :=
  dynamodb_response ←
    query ACMEBankAccount "ACMEBankAccount"
      [("CustomerIdentifier", customer_identifier);
       ("AccountIdentifier", account_identifier)]
      (λ row, key_eq (acc_CustomerIdentifier row) customer_identifier
              && key_eq (acc_AccountIdentifier row) account_identifier);
  if bool_decide (Count dynamodb_response = 0) then mret false
  else mret true.

Definition get_transaction_summary (account_identifier : option string)
    : M string :=
  dynamodb_response ←
    query ACMEAccountTransaction "ACMEAccountTransaction"
      [("AccountIdentifier", account_identifier)]
      (λ row, key_eq (tx_AccountIdentifier row) account_identifier);
  let num_transactions := Count dynamodb_response in
  if bool_decide (num_transactions = 0) then
    mret "I could not find any transactions for this account on our systems. Is there anything else I can help you with?"
  else
    let response_string := "" in
    let transaction_array := Items dynamodb_response in
    for_range num_transactions (λ i response_string,
      transaction_object ← index transaction_array i;
      let transaction_number := TransactionIdentifier transaction_object in
      let transaction_amount := Amount transaction_object in
      let transaction_date := Date transaction_object in
      let transaction_type_code := Type_ transaction_object in
      let transaction_type_description :=
        if attr_eq_str transaction_type_code "CW" then "cash withdrawal"
        else if attr_eq_str transaction_type_code "TFR" then "outbound transfer"
        else "credit" in
      let transaction_description :=
        "Transaction #" +:+ str transaction_number +:+ ": "
        +:+ transaction_type_description +:+ " of £" +:+ str transaction_amount
        +:+ " on " +:+ str transaction_date in
      let response_string := response_string +:+ transaction_description in
      if bool_decide (i = num_transactions - 1) then
        mret (response_string +:+ ". Is there anything else I can help you with?")
      else
        mret (response_string +:+ ", "))
      response_string.

Definition lambda_handler (event : Event) : M Response :=
  let bot_name := bot_name event in
  let intent_name := intent_name event in
  if bool_decide (bot_name ≠ "ACMEBankBot") then
    raise (Exception "This function can only be used with the ACMEBankBot")
  else if bool_decide (intent_name ≠ "ViewTransactionList") then
    raise (Exception "This function can only be used with the ViewTransactionList intent")
  else
    let session_attributes := sessionAttributes event in
    let intent_slots := slots event in
    customer_identifier ← getitem intent_slots "CustomerIdentifier";
    account_identifier ← getitem intent_slots "AccountIdentifier";
    let invocation_source := invocationSource event in
    (* the code after the [if invocation_source == 'DialogCodeHook'] block *)
    let fulfillment : M Response :=
      transaction_summary ← get_transaction_summary account_identifier;
      mret {| resp_sessionAttributes := session_attributes;
              dialogAction :=
                Close "Fulfilled"
                  {| contentType := "PlainText"; content := transaction_summary |} |} in
    if bool_decide (invocation_source = "DialogCodeHook") then
      if bool_decide (customer_identifier = None) then
        mret (elicit_slot "CustomerIdentifier" session_attributes intent_name
                intent_slots)
      else if bool_decide (account_identifier = None) then
        mret (elicit_slot "AccountIdentifier" session_attributes intent_name
                intent_slots)
      else
        customer_valid ← validate_customer_identifier customer_identifier;
        if negb customer_valid then
          let intent_slots := <["CustomerIdentifier" := None]> intent_slots in
          mret (defer_next_action_to_chatbot session_attributes intent_slots)
        else
          account_valid ←
            validate_account_identifier customer_identifier account_identifier;
          if negb account_valid then
            let intent_slots := <["AccountIdentifier" := None]> intent_slots in
            mret (defer_next_action_to_chatbot session_attributes intent_slots)
          else fulfillment
    else fulfillment.

End TransactionList.


(** * Properties *)

(** ** Strings *)

Lemma append_cons (a : Ascii.ascii) (s t : string) :
  String a s +:+ t = String a (s +:+ t).
Proof. reflexivity. Qed.

Lemma append_assoc (s t u : string) : (s +:+ t) +:+ u = s +:+ (t +:+ u).
Proof. induction s as [|a s IH]; [done|]. by rewrite !append_cons, IH. Qed.

(** ** The monad *)

Lemma bind_Returns {A B : Type} (m : M A) (f : A → M B) db tr a tr' :
  m db tr = (Returns a, tr') → (m ≫= f) db tr = f a db tr'.
Proof. unfold mbind, M_bind. by intros ->. Qed.

Lemma bind_Raises {A B : Type} (m : M A) (f : A → M B) db tr e tr' :
  m db tr = (Raises e, tr') → (m ≫= f) db tr = (Raises e, tr').
Proof. unfold mbind, M_bind. by intros ->. Qed.

Lemma getitem_Some {V : Type} (d : gmap string V) key v db tr :
  d !! key = Some v → getitem d key db tr = (Returns v, tr).
Proof. unfold getitem. by intros ->. Qed.

Lemma getitem_None {V : Type} (d : gmap string V) key db tr :
  d !! key = None → getitem d key db tr = (Raises (KeyError key), tr).
Proof. unfold getitem. by intros ->. Qed.

Lemma index_Some {A : Type} (l : list A) i x db tr :
  l !! i = Some x → index l i db tr = (Returns x, tr).
Proof. unfold index. by intros ->. Qed.

Lemma for_each_ext {S : Type} (body body' : nat → S → M S) indices s db tr :
  (∀ i s db tr, body i s db tr = body' i s db tr) →
  for_each body indices s db tr = for_each body' indices s db tr.
Proof.
  intros Hbody. revert s tr.
  induction indices as [|i rest IH]; intros s tr; [done|].
  cbn [for_each]. unfold mbind, M_bind. rewrite Hbody.
  destruct (body' i s db tr) as [[s'|e] tr']; [apply IH|done].
Qed.

(** ** The response formatters

    Both formatters run the same loop: append the description of row [i],
    then the closing sentence after the last row and [", "] after any other. *)

Definition closing_sentence : string :=
  ". Is there anything else I can help you with?".

(** The text the specification describes for one or more rows: the
    descriptions joined with [", "], then the closing sentence. *)
Definition joined (descriptions : list string) : string :=
  String.concat ", " descriptions +:+ closing_sentence.

Section formatter_loop.
Context {R : Type} (describe : R → string) (rows : list R).

Definition loop_body (i : nat) (response_string : string) : M string :=
  row ← index rows i;
  let response_string := response_string +:+ describe row in
  if bool_decide (i = length rows - 1) then
    mret (response_string +:+ closing_sentence)
  else
    mret (response_string +:+ ", ").

Lemma loop_body_step (i : nat) (acc : string) (row : R) db tr :
  rows !! i = Some row →
  loop_body i acc db tr =
    (Returns ((acc +:+ describe row) +:+
              (if bool_decide (i = length rows - 1) then closing_sentence
               else ", ")), tr).
Proof.
  intros Hrow. unfold loop_body.
  rewrite (bind_Returns _ _ _ _ _ _ (index_Some _ _ _ db tr Hrow)).
  by case_bool_decide.
Qed.

(** From index [k] on, the loop appends the joined text of the rows left. *)
Lemma for_each_from (m k : nat) (acc : string) db tr :
  k + m = length rows →
  for_each loop_body (seq k m) acc db tr =
    (Returns (match drop k rows with
              | [] => acc
              | _ :: _ => acc +:+ joined (describe <$> drop k rows)
              end), tr).
Proof.
  revert k acc. induction m as [|m IH]; intros k acc Hlen.
  - simpl. by rewrite drop_ge by lia.
  - destruct (lookup_lt_is_Some_2 rows k) as [x Hx]; [lia|].
    rewrite (drop_S _ _ _ Hx). cbn [seq for_each].
    rewrite (bind_Returns _ _ _ _ _ _ (loop_body_step _ acc _ db tr Hx)).
    rewrite IH by lia. f_equal.
    destruct m as [|m].
    + rewrite bool_decide_true by lia.
      rewrite drop_ge by lia. unfold joined. simpl.
      by rewrite append_assoc.
    + rewrite bool_decide_false by lia.
      destruct (lookup_lt_is_Some_2 rows (S k)) as [y Hy]; [lia|].
      rewrite (drop_S _ _ _ Hy).
      unfold joined. cbn [fmap list_fmap String.concat].
      by rewrite !append_assoc.
Qed.

Lemma for_range_joined db tr :
  rows ≠ [] →
  for_range (length rows) loop_body "" db tr =
    (Returns (joined (describe <$> rows)), tr).
Proof.
  intros Hne. unfold for_range. rewrite for_each_from by done.
  rewrite drop_0. by destruct rows.
Qed.
End formatter_loop.

(** *** Account overview *)

(** [listAccounts]: the rows of the account table stored under a customer
    identifier, in table order. *)
Definition listAccounts (db : Tables) (customer_identifier : option string)
    : list Account :=
  List.filter (λ row, key_eq (acc_CustomerIdentifier row) customer_identifier)
    (ACMEBankAccount db).

Definition account_query (customer_identifier : option string) : Query :=
  {| TableName := "ACMEBankAccount";
     KeyConditionExpression := [("CustomerIdentifier", customer_identifier)] |}.

(** The specification's rendering of one account. *)
Definition account_description (account : Account) : string :=
  "The balance in account number " +:+ acc_AccountIdentifier account
  +:+ " is £" +:+ str (AccountBalance account).

(** The specification's account overview text. *)
Definition account_overview_text (accounts : list Account) : string :=
  match accounts with
  | [] => "I could not find any accounts for you on our systems. Is there anything else I can help you with?"
  | _ :: _ => joined (account_description <$> accounts)
  end.

Lemma get_account_overview_run customer_identifier db tr :
  AccountOverview.get_account_overview customer_identifier db tr =
    (Returns (account_overview_text (listAccounts db customer_identifier)),
     (tr ++ [account_query customer_identifier])%list).
Proof.
  unfold AccountOverview.get_account_overview.
  erewrite bind_Returns by reflexivity.
  fold (listAccounts db customer_identifier).
  cbn [Count Items respond].
  destruct (listAccounts db customer_identifier) as [|a l] eqn:Hrows; [done|].
  rewrite bool_decide_false by done.
  apply (for_range_joined account_description (a :: l)). done.
Qed.

(** C7: the account-overview formatter returns the fixed sentence when the
    customer has no account, and otherwise the descriptions "The balance in
    account number {id} is £{balance}" of the accounts, in the order the store
    returns them, joined with ", " and followed, with no joiner, by ". Is there
    anything else I can help you with?". *)
Theorem get_account_overview_format (db : Tables)
    (customer_identifier : option string) :
  let accounts := listAccounts db customer_identifier in
  fst (run (AccountOverview.get_account_overview customer_identifier) db) =
    Returns
      (match accounts with
       | [] => "I could not find any accounts for you on our systems. Is there anything else I can help you with?"
       | _ :: _ =>
           String.concat ", "
             ((λ account,
                "The balance in account number " +:+ acc_AccountIdentifier account
                +:+ " is £" +:+ str (AccountBalance account)) <$> accounts)
           +:+ ". Is there anything else I can help you with?"
       end).
Proof.
  intros accounts. unfold run. rewrite get_account_overview_run.
  subst accounts. simpl. by destruct (listAccounts _ _).
Qed.

(** Scenario B of the specification. *)
Example get_account_overview_two_accounts :
  fst (run (AccountOverview.get_account_overview (Some "C1"))
         {| ACMEBankCustomer := [];
            ACMEBankAccount :=
              [ {| acc_CustomerIdentifier := "C1"; acc_AccountIdentifier := "ACC1";
                   AccountBalance := AttrN 100 |};
                {| acc_CustomerIdentifier := "C2"; acc_AccountIdentifier := "ACC9";
                   AccountBalance := AttrN 7 |};
                {| acc_CustomerIdentifier := "C1"; acc_AccountIdentifier := "ACC2";
                   AccountBalance := AttrN 50 |} ];
            ACMEAccountTransaction := [] |}) =
  Returns "The balance in account number ACC1 is £100, The balance in account number ACC2 is £50. Is there anything else I can help you with?".
Proof. vm_compute. reflexivity. Qed.

(** *** Transaction list *)

Definition listTransactions (db : Tables) (account_identifier : option string)
    : list Transaction :=
  List.filter (λ row, key_eq (tx_AccountIdentifier row) account_identifier)
    (ACMEAccountTransaction db).

Definition transaction_query (account_identifier : option string) : Query :=
  {| TableName := "ACMEAccountTransaction";
     KeyConditionExpression := [("AccountIdentifier", account_identifier)] |}.

Global Instance attr_eq_dec : EqDecision attr.
Proof. solve_decision. Defined.

(** The specification's label of a type code. *)
Definition type_label (code : attr) : string :=
  if decide (code = AttrS "CW") then "cash withdrawal"
  else if decide (code = AttrS "TFR") then "outbound transfer"
  else "credit".

(** The specification's rendering of one transaction. *)
Definition transaction_description (t : Transaction) : string :=
  "Transaction #" +:+ str (TransactionIdentifier t) +:+ ": "
  +:+ type_label (Type_ t) +:+ " of £" +:+ str (Amount t)
  +:+ " on " +:+ str (Date t).

(** The specification's transaction list text. *)
Definition transaction_summary_text (transactions : list Transaction) : string :=
  match transactions with
  | [] => "I could not find any transactions for this account on our systems. Is there anything else I can help you with?"
  | _ :: _ => joined (transaction_description <$> transactions)
  end.

Lemma attr_eq_str_decide (a : attr) (s : string) :
  attr_eq_str a s = bool_decide (a = AttrS s).
Proof.
  destruct a as [s'|n]; unfold attr_eq_str.
  - apply bool_decide_ext. split; [by intros ->|by intros [= ->]].
  - by rewrite bool_decide_false.
Qed.

Lemma get_transaction_summary_run account_identifier db tr :
  TransactionList.get_transaction_summary account_identifier db tr =
    (Returns (transaction_summary_text (listTransactions db account_identifier)),
     (tr ++ [transaction_query account_identifier])%list).
Proof.
  unfold TransactionList.get_transaction_summary.
  erewrite bind_Returns by reflexivity.
  fold (listTransactions db account_identifier).
  cbn [Count Items respond].
  destruct (listTransactions db account_identifier) as [|t l] eqn:Hrows; [done|].
  rewrite bool_decide_false by done.
  rewrite <- (for_range_joined transaction_description (t :: l) db) by done.
  apply for_each_ext. intros i acc db' tr'.
  unfold loop_body, transaction_description, type_label.
  unfold mbind, M_bind.
  destruct (index (t :: l) i db' tr') as [[row|e] tr'']; [|done].
  rewrite !attr_eq_str_decide.
  repeat case_bool_decide; repeat case_decide; done.
Qed.

(** C8: the transaction-list formatter returns the fixed sentence when the
    account has no transaction, and otherwise the descriptions "Transaction
    #{id}: {label} of £{amount} on {date}" of the transactions, in the order
    the store returns them, joined with ", " and followed by the closing
    sentence; the label is "cash withdrawal" for the type code CW, "outbound
    transfer" for TFR and "credit" for anything else. *)
Theorem get_transaction_summary_format (db : Tables)
    (account_identifier : option string) :
  let transactions := listTransactions db account_identifier in
  let label (code : attr) :=
    if decide (code = AttrS "CW") then "cash withdrawal"
    else if decide (code = AttrS "TFR") then "outbound transfer"
    else "credit" in
  fst (run (TransactionList.get_transaction_summary account_identifier) db) =
    Returns
      (match transactions with
       | [] => "I could not find any transactions for this account on our systems. Is there anything else I can help you with?"
       | _ :: _ =>
           String.concat ", "
             ((λ t,
                "Transaction #" +:+ str (TransactionIdentifier t) +:+ ": "
                +:+ label (Type_ t) +:+ " of £" +:+ str (Amount t)
                +:+ " on " +:+ str (Date t)) <$> transactions)
           +:+ ". Is there anything else I can help you with?"
       end).
Proof.
  intros transactions label. unfold run. rewrite get_transaction_summary_run.
  subst transactions. simpl. by destruct (listTransactions _ _).
Qed.

(** Scenario C of the specification, and the three labels. *)
Example get_transaction_summary_labels :
  fst (run (TransactionList.get_transaction_summary (Some "ACC1"))
         {| ACMEBankCustomer := []; ACMEBankAccount := [];
            ACMEAccountTransaction :=
              [ {| tx_AccountIdentifier := "ACC1"; TransactionIdentifier := AttrS "T1";
                   Amount := AttrN 20; Date := AttrS "2024-01-01";
                   Type_ := AttrS "TFR" |};
                {| tx_AccountIdentifier := "ACC1"; TransactionIdentifier := AttrS "T2";
                   Amount := AttrN 5; Date := AttrS "2024-01-02";
                   Type_ := AttrS "CW" |};
                {| tx_AccountIdentifier := "ACC1"; TransactionIdentifier := AttrS "T3";
                   Amount := AttrN 9; Date := AttrS "2024-01-03";
                   Type_ := AttrS "DEP" |} ] |}) =
  Returns "Transaction #T1: outbound transfer of £20 on 2024-01-01, Transaction #T2: cash withdrawal of £5 on 2024-01-02, Transaction #T3: credit of £9 on 2024-01-03. Is there anything else I can help you with?".
Proof. vm_compute. reflexivity. Qed.

(** ** The reference store, as the specification names its lookups *)

(** [customerExists]: at least one customer record matches. *)
Definition customerExists (db : Tables) (customer_identifier : option string)
    : bool :=
  existsb (λ row, key_eq (cust_CustomerIdentifier row) customer_identifier)
    (ACMEBankCustomer db).

(** [accountExists]: at least one account record matches the exact pair. *)
Definition accountExists (db : Tables)
    (customer_identifier account_identifier : option string) : bool :=
  existsb (λ row, key_eq (acc_CustomerIdentifier row) customer_identifier
                  && key_eq (acc_AccountIdentifier row) account_identifier)
    (ACMEBankAccount db).

Definition customer_query (customer_identifier : option string) : Query :=
  {| TableName := "ACMEBankCustomer";
     KeyConditionExpression := [("CustomerIdentifier", customer_identifier)] |}.

Definition account_pair_query
    (customer_identifier account_identifier : option string) : Query :=
  {| TableName := "ACMEBankAccount";
     KeyConditionExpression := [("CustomerIdentifier", customer_identifier);
                                ("AccountIdentifier", account_identifier)] |}.

Lemma filter_count_existsb {R : Type} (f : R → bool) (rows : list R) :
  bool_decide (Count (respond (List.filter f rows)) = 0) = negb (existsb f rows).
Proof.
  cbn [Count respond]. induction rows as [|row rows IH]; [done|].
  cbn [List.filter existsb]. destruct (f row); [done|]. by rewrite IH.
Qed.

Lemma key_eq_true (k : string) (v : option string) :
  key_eq k v = true ↔ v = Some k.
Proof. unfold key_eq. by rewrite bool_decide_eq_true. Qed.

Lemma customerExists_true db v :
  customerExists db v = true ↔
  ∃ k, v = Some k ∧ {| cust_CustomerIdentifier := k |} ∈ ACMEBankCustomer db.
Proof.
  unfold customerExists. rewrite existsb_exists. split.
  - intros ([k] & Hin & Heq). apply key_eq_true in Heq.
    exists k. split; [done|]. by apply list_elem_of_In.
  - intros (k & -> & Hin). exists {| cust_CustomerIdentifier := k |}.
    split; [by apply list_elem_of_In|]. by apply key_eq_true.
Qed.

Lemma validate_customer_identifier_run customer_identifier db tr :
  AccountOverview.validate_customer_identifier customer_identifier db tr =
    (Returns (customerExists db customer_identifier),
     (tr ++ [customer_query customer_identifier])%list).
Proof.
  unfold AccountOverview.validate_customer_identifier.
  erewrite bind_Returns by reflexivity.
  rewrite filter_count_existsb. unfold customerExists.
  by destruct (existsb _ _).
Qed.

Lemma TransactionList_validate_customer_identifier_run customer_identifier db tr :
  TransactionList.validate_customer_identifier customer_identifier db tr =
    (Returns (customerExists db customer_identifier),
     (tr ++ [customer_query customer_identifier])%list).
Proof. apply validate_customer_identifier_run. Qed.

Lemma validate_account_identifier_run customer_identifier account_identifier db tr :
  TransactionList.validate_account_identifier customer_identifier
      account_identifier db tr =
    (Returns (accountExists db customer_identifier account_identifier),
     (tr ++ [account_pair_query customer_identifier account_identifier])%list).
Proof.
  unfold TransactionList.validate_account_identifier.
  erewrite bind_Returns by reflexivity.
  rewrite filter_count_existsb. unfold accountExists.
  by destruct (existsb _ _).
Qed.

(** ** The handlers, run

    Each handler's run written out as a decision table: the outcome and the
    queries made, in order. *)

Definition close (session_attributes : option (gmap string string))
    (text : string) : Response :=
  {| resp_sessionAttributes := session_attributes;
     dialogAction := Close "Fulfilled"
                       {| contentType := "PlainText"; content := text |} |}.

Definition AccountOverview_table (event : Event) (db : Tables)
    : outcome Response * list Query :=
  if bool_decide (bot_name event ≠ "ACMEBankBot") then
    (Raises (Exception "This function can only be used with the ACMEBankBot"), [])
  else if bool_decide (intent_name event ≠ "AccountOverview") then
    (Raises (Exception "This function can only be used with the AccountOverview intent"), [])
  else
    match slots event !! "CustomerIdentifier" with
    | None => (Raises (KeyError "CustomerIdentifier"), [])
    | Some customer =>
        let text := account_overview_text (listAccounts db customer) in
        if bool_decide (invocationSource event = "DialogCodeHook") then
          match customer with
          | None =>
              (Returns (AccountOverview.elicit_slot "CustomerIdentifier"
                          (sessionAttributes event) (intent_name event)
                          (slots event)), [])
          | Some _ =>
              if customerExists db customer then
                (Returns (close (sessionAttributes event) text),
                 [customer_query customer; account_query customer])
              else
                (Returns (AccountOverview.defer_next_action_to_chatbot
                            (sessionAttributes event)
                            (<["CustomerIdentifier" := None]> (slots event))),
                 [customer_query customer])
          end
        else
          (Returns (close (sessionAttributes event) text),
           [account_query customer])
    end.

Lemma AccountOverview_run event db :
  run (AccountOverview.lambda_handler event) db = AccountOverview_table event db.
Proof.
  unfold run, AccountOverview.lambda_handler, AccountOverview_table.
  case_bool_decide; [done|]. case_bool_decide; [done|].
  destruct (slots event !! "CustomerIdentifier") as [customer|] eqn:Hslot.
  2: { by rewrite (bind_Raises _ _ _ _ _ _ (getitem_None _ _ _ _ Hslot)). }
  rewrite (bind_Returns _ _ _ _ _ _ (getitem_Some _ _ _ _ _ Hslot)).
  case_bool_decide.
  - destruct customer as [c|]; [|done].
    rewrite bool_decide_false by done.
    erewrite bind_Returns by apply validate_customer_identifier_run.
    destruct (customerExists db (Some c)); [|done].
    cbn [negb]. erewrite bind_Returns by apply get_account_overview_run. done.
  - erewrite bind_Returns by apply get_account_overview_run. done.
Qed.

Definition TransactionList_table (event : Event) (db : Tables)
    : outcome Response * list Query :=
  if bool_decide (bot_name event ≠ "ACMEBankBot") then
    (Raises (Exception "This function can only be used with the ACMEBankBot"), [])
  else if bool_decide (intent_name event ≠ "ViewTransactionList") then
    (Raises (Exception "This function can only be used with the ViewTransactionList intent"), [])
  else
    match slots event !! "CustomerIdentifier" with
    | None => (Raises (KeyError "CustomerIdentifier"), [])
    | Some customer =>
        match slots event !! "AccountIdentifier" with
        | None => (Raises (KeyError "AccountIdentifier"), [])
        | Some account =>
            let text := transaction_summary_text (listTransactions db account) in
            if bool_decide (invocationSource event = "DialogCodeHook") then
              match customer, account with
              | None, _ =>
                  (Returns (TransactionList.elicit_slot "CustomerIdentifier"
                              (sessionAttributes event) (intent_name event)
                              (slots event)), [])
              | Some _, None =>
                  (Returns (TransactionList.elicit_slot "AccountIdentifier"
                              (sessionAttributes event) (intent_name event)
                              (slots event)), [])
              | Some _, Some _ =>
                  if negb (customerExists db customer) then
                    (Returns (TransactionList.defer_next_action_to_chatbot
                                (sessionAttributes event)
                                (<["CustomerIdentifier" := None]> (slots event))),
                     [customer_query customer])
                  else if negb (accountExists db customer account) then
                    (Returns (TransactionList.defer_next_action_to_chatbot
                                (sessionAttributes event)
                                (<["AccountIdentifier" := None]> (slots event))),
                     [customer_query customer; account_pair_query customer account])
                  else
                    (Returns (close (sessionAttributes event) text),
                     [customer_query customer; account_pair_query customer account;
                      transaction_query account])
              end
            else
              (Returns (close (sessionAttributes event) text),
               [transaction_query account])
        end
    end.

Lemma TransactionList_run event db :
  run (TransactionList.lambda_handler event) db = TransactionList_table event db.
Proof.
  unfold run, TransactionList.lambda_handler, TransactionList_table.
  case_bool_decide; [done|]. case_bool_decide; [done|].
  destruct (slots event !! "CustomerIdentifier") as [customer|] eqn:Hcust.
  2: { by rewrite (bind_Raises _ _ _ _ _ _ (getitem_None _ _ _ _ Hcust)). }
  rewrite (bind_Returns _ _ _ _ _ _ (getitem_Some _ _ _ _ _ Hcust)).
  destruct (slots event !! "AccountIdentifier") as [account|] eqn:Hacc.
  2: { by rewrite (bind_Raises _ _ _ _ _ _ (getitem_None _ _ _ _ Hacc)). }
  rewrite (bind_Returns _ _ _ _ _ _ (getitem_Some _ _ _ _ _ Hacc)).
  case_bool_decide.
  - destruct customer as [c|]; [|done].
    rewrite bool_decide_false by done.
    destruct account as [a|]; [|done].
    rewrite bool_decide_false by done.
    erewrite bind_Returns by apply TransactionList_validate_customer_identifier_run.
    destruct (customerExists db (Some c)); [|done].
    cbn [negb].
    erewrite bind_Returns by apply validate_account_identifier_run.
    destruct (accountExists db (Some c) (Some a)); [|done].
    cbn [negb]. erewrite bind_Returns by apply get_transaction_summary_run. done.
  - erewrite bind_Returns by apply get_transaction_summary_run. done.
Qed.

(** ** The intent definitions of the specification

    The two handlers that validate and fulfil, seen as one state machine over
    a table of intents: name, required slots in declared order, validator of
    each slot. *)

Inductive Intent : Type := IntentAccountOverview | IntentViewTransactionList.

Inductive Slot : Type := CustomerIdentifier | AccountIdentifier.

Definition slot_name (k : Slot) : string :=
  match k with
  | CustomerIdentifier => "CustomerIdentifier"
  | AccountIdentifier => "AccountIdentifier"
  end.

Definition intent_name_of (i : Intent) : string :=
  match i with
  | IntentAccountOverview => "AccountOverview"
  | IntentViewTransactionList => "ViewTransactionList"
  end.

Definition required_slots (i : Intent) : list Slot :=
  match i with
  | IntentAccountOverview => [CustomerIdentifier]
  | IntentViewTransactionList => [CustomerIdentifier; AccountIdentifier]
  end.

Definition handler (i : Intent) : Event → M Response :=
  match i with
  | IntentAccountOverview => AccountOverview.lambda_handler
  | IntentViewTransactionList => TransactionList.lambda_handler
  end.

(** The value of a slot: [None] when the slot is absent. *)
Definition slot_value (s : gmap string (option string)) (k : Slot)
    : option string :=
  s !! slot_name k ≫= id.

(** The slot mapping holds every slot the intent declares. *)
Definition declares_all (i : Intent) (s : gmap string (option string)) : bool :=
  forallb (λ k, bool_decide (is_Some (s !! slot_name k))) (required_slots i).

Definition absent (s : gmap string (option string)) (k : Slot) : bool :=
  bool_decide (slot_value s k = None).

(** The validator of each slot: the customer must exist, the account must
    exist under that customer. *)
Definition slot_valid (db : Tables) (s : gmap string (option string)) (k : Slot)
    : bool :=
  match k with
  | CustomerIdentifier => customerExists db (slot_value s CustomerIdentifier)
  | AccountIdentifier =>
      accountExists db (slot_value s CustomerIdentifier)
        (slot_value s AccountIdentifier)
  end.

(** The response text of a fulfilled intent and the one query it takes. *)
Definition fulfillment_text (i : Intent) (db : Tables)
    (s : gmap string (option string)) : string :=
  match i with
  | IntentAccountOverview =>
      account_overview_text (listAccounts db (slot_value s CustomerIdentifier))
  | IntentViewTransactionList =>
      transaction_summary_text (listTransactions db (slot_value s AccountIdentifier))
  end.

Definition fulfillment_query (i : Intent) (s : gmap string (option string))
    : Query :=
  match i with
  | IntentAccountOverview => account_query (slot_value s CustomerIdentifier)
  | IntentViewTransactionList => transaction_query (slot_value s AccountIdentifier)
  end.

(** [s'] is [s] with exactly slot [k] cleared. *)
Definition cleared_only (k : string) (s s' : gmap string (option string)) : Prop :=
  s' !! k = Some None ∧ ∀ k', k' ≠ k → s' !! k' = s !! k'.

Lemma cleared_only_insert k (s : gmap string (option string)) :
  cleared_only k s (<[k := None]> s).
Proof.
  split; [apply lookup_insert_eq|]. intros k' Hne. by apply lookup_insert_ne.
Qed.

Lemma declares_all_lookup i s k :
  declares_all i s = true → k ∈ required_slots i →
  s !! slot_name k = Some (slot_value s k).
Proof.
  unfold declares_all. rewrite forallb_forall.
  intros Hall Hk%list_elem_of_In. specialize (Hall k Hk).
  apply bool_decide_eq_true in Hall as [v Hv].
  unfold slot_value. by rewrite Hv.
Qed.

(** ** Concrete turns, used to run the handlers *)

Definition bank : Tables :=
  {| ACMEBankCustomer :=
       [ {| cust_CustomerIdentifier := "CUS01" |};
         {| cust_CustomerIdentifier := "CUS03" |} ];
     ACMEBankAccount :=
       [ {| acc_CustomerIdentifier := "CUS01"; acc_AccountIdentifier := "ACC1";
            AccountBalance := AttrN 100 |};
         {| acc_CustomerIdentifier := "CUS01"; acc_AccountIdentifier := "ACC2";
            AccountBalance := AttrN 50 |};
         {| acc_CustomerIdentifier := "CUS03"; acc_AccountIdentifier := "ACC3";
            AccountBalance := AttrN 7 |} ];
     ACMEAccountTransaction :=
       [ {| tx_AccountIdentifier := "ACC1"; TransactionIdentifier := AttrS "T1";
            Amount := AttrN 20; Date := AttrS "2024-01-01"; Type_ := AttrS "TFR" |} ] |}.

Definition turn (bot intent source : string) (customer account : option string)
    (session : option (gmap string string)) : Event :=
  {| bot_name := bot; intent_name := intent;
     slots := {[ "CustomerIdentifier" := customer; "AccountIdentifier" := account ]};
     sessionAttributes := session; invocationSource := source |}.

(** ** Validation phase *)

Ltac identity_ok Hbot Hintent :=
  rewrite Hbot, Hintent;
  rewrite !(bool_decide_false (_ ≠ _)) by (let H := fresh in intros H; by apply H).

Ltac lookup_slot Hall k :=
  let H := fresh "Hlookup" in
  pose proof (declares_all_lookup _ _ k Hall) as H;
  cbn [slot_name] in H; rewrite H by (cbn [required_slots]; set_solver);
  clear H.

(** The validation-phase run of either handler, by the first check that
    fails: presence of each required slot in declared order, then validity of
    each required slot in declared order. *)
Lemma validation_run (i : Intent) (db : Tables) (event : Event) :
  bot_name event = "ACMEBankBot" →
  intent_name event = intent_name_of i →
  invocationSource event = "DialogCodeHook" →
  declares_all i (slots event) = true →
  run (handler i event) db =
    match List.find (absent (slots event)) (required_slots i) with
    | Some k =>
        (Returns {| resp_sessionAttributes := sessionAttributes event;
                    dialogAction :=
                      ElicitSlot (intent_name event) (slots event)
                        (Some (slot_name k)) None |}, [])
    | None =>
        match List.find (λ k, negb (slot_valid db (slots event) k))
                (required_slots i) with
        | Some k =>
            (Returns {| resp_sessionAttributes := sessionAttributes event;
                        dialogAction :=
                          Delegate (<[slot_name k := None]> (slots event)) |},
             match k with
             | CustomerIdentifier =>
                 [customer_query (slot_value (slots event) CustomerIdentifier)]
             | AccountIdentifier =>
                 [customer_query (slot_value (slots event) CustomerIdentifier);
                  account_pair_query
                    (slot_value (slots event) CustomerIdentifier)
                    (slot_value (slots event) AccountIdentifier)]
             end)
        | None =>
            (Returns (close (sessionAttributes event)
                        (fulfillment_text i db (slots event))),
             ((λ k, match k with
                    | CustomerIdentifier =>
                        customer_query (slot_value (slots event) CustomerIdentifier)
                    | AccountIdentifier =>
                        account_pair_query
                          (slot_value (slots event) CustomerIdentifier)
                          (slot_value (slots event) AccountIdentifier)
                    end) <$> required_slots i)
             ++ [fulfillment_query i (slots event)])%list
        end
    end.
Proof.
  intros Hbot Hintent Hsource Hall. destruct i; cbn [handler].
  - rewrite AccountOverview_run. unfold AccountOverview_table.
    identity_ok Hbot Hintent. lookup_slot Hall CustomerIdentifier.
    rewrite Hsource, bool_decide_true by done.
    cbn [required_slots List.find slot_valid fulfillment_text fulfillment_query
         fmap list_fmap app].
    unfold absent.
    destruct (slot_value (slots event) CustomerIdentifier) as [c|]; [|done].
    rewrite bool_decide_false by done.
    by destruct (customerExists db (Some c)).
  - rewrite TransactionList_run. unfold TransactionList_table.
    identity_ok Hbot Hintent.
    lookup_slot Hall CustomerIdentifier. lookup_slot Hall AccountIdentifier.
    rewrite Hsource, bool_decide_true by done.
    cbn [required_slots List.find slot_valid fulfillment_text fulfillment_query
         fmap list_fmap app].
    unfold absent.
    destruct (slot_value (slots event) CustomerIdentifier) as [c|]; [|done].
    rewrite (bool_decide_false (Some c = None)) by done.
    destruct (slot_value (slots event) AccountIdentifier) as [a|]; [|done].
    rewrite bool_decide_false by done.
    destruct (customerExists db (Some c)); [|done].
    by destruct (accountExists db (Some c) (Some a)).
Qed.

(** X1: on a validation turn of the AccountOverview or ViewTransactionList
    handler that passes the identity checks, the first required slot, in
    declared order, whose value is absent is elicited: the response is an
    ElicitSlot for that slot without a message, it carries the request's
    session attributes and slot mapping unchanged, and no query is sent. *)
Lemma absent_slot_elicited (i : Intent) (db : Tables) (event : Event) (k : Slot) :
  bot_name event = "ACMEBankBot" →
  intent_name event = intent_name_of i →
  invocationSource event = "DialogCodeHook" →
  declares_all i (slots event) = true →
  List.find (absent (slots event)) (required_slots i) = Some k →
  run (handler i event) db =
    (Returns {| resp_sessionAttributes := sessionAttributes event;
                dialogAction :=
                  ElicitSlot (intent_name event) (slots event)
                    (Some (slot_name k)) None |}, []).
Proof.
  intros Hbot Hintent Hsource Hall Hfind.
  by rewrite (validation_run i db event Hbot Hintent Hsource Hall), Hfind.
Qed.

(** A validation turn of the AccountOverview handler whose CustomerIdentifier
    is present and unknown to the store. *)
Definition unknown_customer_turn : Event :=
  turn "ACMEBankBot" "AccountOverview" "DialogCodeHook" (Some "XYZ") None None.

(** C1, as stated, fails: on a present but invalid CustomerIdentifier the
    AccountOverview handler answers with a Delegate, which names no slot to
    elicit and carries no message. *)
Lemma invalid_customer_is_not_elicited :
  invocationSource unknown_customer_turn = "DialogCodeHook" ∧
  slot_value (slots unknown_customer_turn) CustomerIdentifier = Some "XYZ" ∧
  slot_valid bank (slots unknown_customer_turn) CustomerIdentifier = false ∧
  fst (run (AccountOverview.lambda_handler unknown_customer_turn) bank) =
    Returns {| resp_sessionAttributes := None;
               dialogAction :=
                 Delegate (<["CustomerIdentifier" := None]>
                             (slots unknown_customer_turn)) |} ∧
  ¬ ∃ session intent slots' slot message,
      fst (run (AccountOverview.lambda_handler unknown_customer_turn) bank) =
        Returns {| resp_sessionAttributes := session;
                   dialogAction := ElicitSlot intent slots' slot message |}.
Proof.
  assert (fst (run (AccountOverview.lambda_handler unknown_customer_turn) bank) =
    Returns {| resp_sessionAttributes := None;
               dialogAction :=
                 Delegate (<["CustomerIdentifier" := None]>
                             (slots unknown_customer_turn)) |}) as Hrun
    by (vm_compute; reflexivity).
  repeat split; try (vm_compute; reflexivity).
  intros (session & intent & slots' & slot & message & Helicit).
  rewrite Hrun in Helicit. discriminate Helicit.
Qed.

(** C1, amended: on a validation turn of the AccountOverview or
    ViewTransactionList handler in which every required slot is present and
    some required slot is invalid, the handler returns a Delegate response
    (no slot to elicit, no message) carrying the request's session attributes
    and the request's slot mapping with exactly the first invalid slot, in
    declared order, cleared to absent and no other slot touched. *)
Theorem invalid_slot_cleared_and_delegated (i : Intent) (db : Tables)
    (event : Event) (k : Slot) :
  bot_name event = "ACMEBankBot" →
  intent_name event = intent_name_of i →
  invocationSource event = "DialogCodeHook" →
  declares_all i (slots event) = true →
  List.find (absent (slots event)) (required_slots i) = None →
  List.find (λ k, negb (slot_valid db (slots event) k)) (required_slots i) = Some k →
  ∃ slots',
    fst (run (handler i event) db) =
      Returns {| resp_sessionAttributes := sessionAttributes event;
                 dialogAction := Delegate slots' |} ∧
    cleared_only (slot_name k) (slots event) slots'.
Proof.
  intros Hbot Hintent Hsource Hall Hpresent Hinvalid.
  rewrite (validation_run i db event Hbot Hintent Hsource Hall).
  rewrite Hpresent, Hinvalid. eexists. split; [done|].
  apply cleared_only_insert.
Qed.

Definition unknown_account_turn : Event :=
  turn "ACMEBankBot" "ViewTransactionList" "DialogCodeHook"
    (Some "CUS01") (Some "ACC3") (Some {[ "channel" := "web" ]}).

Lemma invalid_slot_cleared_and_delegated_witness :
  ∃ slots',
    fst (run (TransactionList.lambda_handler unknown_account_turn) bank) =
      Returns {| resp_sessionAttributes := Some {[ "channel" := "web" ]};
                 dialogAction := Delegate slots' |} ∧
    cleared_only "AccountIdentifier" (slots unknown_account_turn) slots'.
Proof.
  apply (invalid_slot_cleared_and_delegated IntentViewTransactionList bank
           unknown_account_turn AccountIdentifier); reflexivity.
Defined.

(** A validation turn of the ViewTransactionList handler: CustomerIdentifier
    present but unknown to the store, AccountIdentifier absent. *)
Definition unknown_customer_no_account_turn : Event :=
  turn "ACMEBankBot" "ViewTransactionList" "DialogCodeHook" (Some "XYZ") None None.

(** C2, as stated, fails: with CustomerIdentifier present but invalid and
    AccountIdentifier absent the ViewTransactionList handler elicits
    AccountIdentifier; CustomerIdentifier is neither validated (no query is
    sent) nor cleared. *)
Lemma absent_account_precedes_invalid_customer :
  slot_value (slots unknown_customer_no_account_turn) CustomerIdentifier = Some "XYZ" ∧
  slot_valid bank (slots unknown_customer_no_account_turn) CustomerIdentifier = false ∧
  slot_value (slots unknown_customer_no_account_turn) AccountIdentifier = None ∧
  run (TransactionList.lambda_handler unknown_customer_no_account_turn) bank =
    (Returns {| resp_sessionAttributes := None;
                dialogAction :=
                  ElicitSlot "ViewTransactionList"
                    (slots unknown_customer_no_account_turn)
                    (Some "AccountIdentifier") None |}, []).
Proof. repeat split; vm_compute; reflexivity. Qed.

(** C2, amended: on a validation turn the ViewTransactionList handler makes
    four checks in a fixed order: CustomerIdentifier present, AccountIdentifier
    present, CustomerIdentifier valid, AccountIdentifier valid.  The first
    check that fails ends the turn, and the queries sent are exactly those of
    the validity checks made up to it: no later check is evaluated.  So a
    present but invalid CustomerIdentifier with an absent AccountIdentifier
    elicits AccountIdentifier. *)
Theorem TransactionList_validation_order (db : Tables) (event : Event)
    (customer account : option string) :
  bot_name event = "ACMEBankBot" →
  intent_name event = "ViewTransactionList" →
  invocationSource event = "DialogCodeHook" →
  slots event !! "CustomerIdentifier" = Some customer →
  slots event !! "AccountIdentifier" = Some account →
  run (TransactionList.lambda_handler event) db =
    if bool_decide (customer = None) then
      (Returns {| resp_sessionAttributes := sessionAttributes event;
                  dialogAction :=
                    ElicitSlot "ViewTransactionList" (slots event)
                      (Some "CustomerIdentifier") None |}, [])
    else if bool_decide (account = None) then
      (Returns {| resp_sessionAttributes := sessionAttributes event;
                  dialogAction :=
                    ElicitSlot "ViewTransactionList" (slots event)
                      (Some "AccountIdentifier") None |}, [])
    else if negb (customerExists db customer) then
      (Returns {| resp_sessionAttributes := sessionAttributes event;
                  dialogAction :=
                    Delegate (<["CustomerIdentifier" := None]> (slots event)) |},
       [customer_query customer])
    else if negb (accountExists db customer account) then
      (Returns {| resp_sessionAttributes := sessionAttributes event;
                  dialogAction :=
                    Delegate (<["AccountIdentifier" := None]> (slots event)) |},
       [customer_query customer; account_pair_query customer account])
    else
      (Returns {| resp_sessionAttributes := sessionAttributes event;
                  dialogAction :=
                    Close "Fulfilled"
                      {| contentType := "PlainText";
                         content :=
                           transaction_summary_text (listTransactions db account) |} |},
       [customer_query customer; account_pair_query customer account;
        transaction_query account]).
Proof.
  intros Hbot Hintent Hsource Hcustomer Haccount.
  rewrite TransactionList_run. unfold TransactionList_table.
  identity_ok Hbot Hintent.
  rewrite Hcustomer, Haccount, Hsource.
  rewrite (bool_decide_true (_ = "DialogCodeHook")) by done.
  destruct customer as [c|]; [|done].
  rewrite (bool_decide_false (Some c = None)) by done.
  destruct account as [a|]; [|done].
  by rewrite bool_decide_false by done.
Qed.

Lemma TransactionList_validation_order_witness :
  run (TransactionList.lambda_handler unknown_customer_no_account_turn) bank =
    (Returns {| resp_sessionAttributes := None;
                dialogAction :=
                  ElicitSlot "ViewTransactionList"
                    (slots unknown_customer_no_account_turn)
                    (Some "AccountIdentifier") None |}, []).
Proof.
  apply (TransactionList_validation_order bank unknown_customer_no_account_turn
           (Some "XYZ") None); reflexivity.
Defined.

Lemma find_first {A : Type} (p : A → bool) (before : list A) (k : A)
    (after : list A) :
  forallb (λ x, negb (p x)) before = true →
  p k = true →
  List.find p (before ++ k :: after) = Some k.
Proof.
  intros Hbefore Hk. induction before as [|x before IH]; cbn [app List.find].
  - by rewrite Hk.
  - cbn [forallb] in Hbefore. apply andb_true_iff in Hbefore as [Hx Hbefore].
    apply negb_true_iff in Hx. rewrite Hx. by apply IH.
Qed.

(** A validation turn of the ViewTransactionList handler with both slots
    absent. *)
Definition empty_turn : Event :=
  turn "ACMEBankBot" "ViewTransactionList" "DialogCodeHook" None None
    (Some {[ "channel" := "web" ]}).

(** C9: on a validation turn in which some required slot value is absent, the
    handler returns an ElicitSlot for the first absent slot in declared order
    (every required slot declared before it has a value), without a message,
    and the slot mapping it emits is the request's, with no value changed; no
    query is sent.  The slot mapping holds every declared slot, as the
    specification's data model has it. *)
Theorem first_absent_slot_in_declared_order_is_elicited (i : Intent)
    (db : Tables) (event : Event) (before : list Slot) (k : Slot)
    (after : list Slot) :
  bot_name event = "ACMEBankBot" →
  intent_name event = intent_name_of i →
  invocationSource event = "DialogCodeHook" →
  declares_all i (slots event) = true →
  required_slots i = (before ++ k :: after)%list →
  forallb (λ k', negb (absent (slots event) k')) before = true →
  absent (slots event) k = true →
  ∃ response : Response,
    run (handler i event) db = (Returns response, []) ∧
    resp_sessionAttributes response = sessionAttributes event ∧
    dialogAction response =
      ElicitSlot (intent_name event) (slots event) (Some (slot_name k)) None.
Proof.
  intros Hbot Hintent Hsource Hall Hdeclared Hbefore Hk.
  rewrite (validation_run i db event Hbot Hintent Hsource Hall).
  rewrite Hdeclared, (find_first _ _ _ _ Hbefore Hk). by eexists.
Qed.

Lemma first_absent_slot_in_declared_order_is_elicited_witness :
  ∃ response : Response,
    run (TransactionList.lambda_handler empty_turn) bank = (Returns response, []) ∧
    resp_sessionAttributes response = Some {[ "channel" := "web" ]} ∧
    dialogAction response =
      ElicitSlot "ViewTransactionList" (slots empty_turn)
        (Some "CustomerIdentifier") None.
Proof.
  apply (first_absent_slot_in_declared_order_is_elicited
           IntentViewTransactionList bank empty_turn
           [] CustomerIdentifier [AccountIdentifier]); reflexivity.
Defined.

(** ** Fulfillment phase *)

Lemma fulfillment_run (i : Intent) (db : Tables) (event : Event) :
  bot_name event = "ACMEBankBot" →
  intent_name event = intent_name_of i →
  invocationSource event ≠ "DialogCodeHook" →
  declares_all i (slots event) = true →
  run (handler i event) db =
    (Returns (close (sessionAttributes event)
                (fulfillment_text i db (slots event))),
     [fulfillment_query i (slots event)]).
Proof.
  intros Hbot Hintent Hsource Hall. destruct i; cbn [handler].
  - rewrite AccountOverview_run. unfold AccountOverview_table.
    identity_ok Hbot Hintent. lookup_slot Hall CustomerIdentifier.
    by rewrite bool_decide_false by done.
  - rewrite TransactionList_run. unfold TransactionList_table.
    identity_ok Hbot Hintent.
    lookup_slot Hall CustomerIdentifier. lookup_slot Hall AccountIdentifier.
    by rewrite bool_decide_false by done.
Qed.



Definition unknown_customer_fulfillment_turn : Event :=
  turn "ACMEBankBot" "AccountOverview" "FulfillmentCodeHook" (Some "XYZ") None None.


(** ** Identity checks *)

(** X2: the AccountOverview and ViewTransactionList handlers raise an
    Exception, before any query is sent, whenever the bot name or the intent
    name is not the expected one. *)
Lemma identity_mismatch_raises (i : Intent) (db : Tables) (event : Event) :
  bot_name event ≠ "ACMEBankBot" ∨ intent_name event ≠ intent_name_of i →
  ∃ msg, run (handler i event) db = (Raises (Exception msg), []).
Proof.
  intros Hmismatch. destruct i; cbn [handler intent_name_of] in *.
  - rewrite AccountOverview_run. unfold AccountOverview_table.
    repeat case_bool_decide; eauto; tauto.
  - rewrite TransactionList_run. unfold TransactionList_table.
    repeat case_bool_decide; eauto; tauto.
Qed.

(** C4: a turn whose bot name or whose intent name is not the handler's own
    makes the handler raise before it reads anything else: the run ends in an
    Exception, no query is sent and no Dialog Action is produced.  The bot
    name is checked first, so a bot-name mismatch alone raises, with the same
    message whatever the intent name is. *)
Theorem identity_mismatch_aborts (i : Intent) (db : Tables) (event : Event) :
  bot_name event ≠ "ACMEBankBot" ∨ intent_name event ≠ intent_name_of i →
  run (handler i event) db =
    (Raises
       (Exception
          (if bool_decide (bot_name event ≠ "ACMEBankBot") then
             "This function can only be used with the ACMEBankBot"
           else
             "This function can only be used with the " +:+ intent_name_of i
             +:+ " intent")), []) ∧
  ∀ response, fst (run (handler i event) db) ≠ Returns response.
Proof.
  intros Hmismatch.
  assert (run (handler i event) db =
    (Raises
       (Exception
          (if bool_decide (bot_name event ≠ "ACMEBankBot") then
             "This function can only be used with the ACMEBankBot"
           else
             "This function can only be used with the " +:+ intent_name_of i
             +:+ " intent")), [])) as Hrun.
  { destruct i; cbn [handler intent_name_of] in *.
    - rewrite AccountOverview_run. unfold AccountOverview_table.
      repeat case_bool_decide; try done; tauto.
    - rewrite TransactionList_run. unfold TransactionList_table.
      repeat case_bool_decide; try done; tauto. }
  split; [done|]. intros response. by rewrite Hrun.
Qed.

Definition wrong_bot_turn : Event :=
  turn "OtherBot" "AccountOverview" "DialogCodeHook" (Some "CUS01") None None.

Lemma identity_mismatch_aborts_witness :
  run (AccountOverview.lambda_handler wrong_bot_turn) bank =
    (Raises (Exception "This function can only be used with the ACMEBankBot"), []) ∧
  ∀ response,
    fst (run (AccountOverview.lambda_handler wrong_bot_turn) bank) ≠ Returns response.
Proof.
  apply (identity_mismatch_aborts IntentAccountOverview bank wrong_bot_turn).
  left. discriminate.
Defined.

(** ** Session attributes *)

(** X3: every response the AccountOverview and ViewTransactionList handlers
    return, in either phase, carries the event's [sessionAttributes] as they
    came (an absent value stays absent). *)
Lemma session_attributes_verbatim (i : Intent) (db : Tables) (event : Event)
    (response : Response) :
  fst (run (handler i event) db) = Returns response →
  resp_sessionAttributes response = sessionAttributes event.
Proof.
  destruct i; cbn [handler].
  - rewrite AccountOverview_run. unfold AccountOverview_table.
    repeat (case_bool_decide || case_match); simpl; intros [= <-]; done.
  - rewrite TransactionList_run. unfold TransactionList_table.
    repeat (case_bool_decide || case_match); simpl; intros [= <-]; done.
Qed.

(** The event with other session attributes. *)
Definition with_session (event : Event)
    (session : option (gmap string string)) : Event :=
  {| bot_name := bot_name event; intent_name := intent_name event;
     slots := slots event; sessionAttributes := session;
     invocationSource := invocationSource event |}.

(** The outcome with the session attributes of the response replaced. *)
Definition carry (session : option (gmap string string))
    (o : outcome Response) : outcome Response :=
  match o with
  | Returns response =>
      Returns {| resp_sessionAttributes := session;
                 dialogAction := dialogAction response |}
  | Raises e => Raises e
  end.

(** C5, as stated, fails: an absent [sessionAttributes] is not defaulted to an
    empty mapping, the response carries it as absent. *)
Lemma absent_session_attributes_stay_absent :
  sessionAttributes unknown_customer_turn = None ∧
  ∃ response,
    fst (run (AccountOverview.lambda_handler unknown_customer_turn) bank) =
      Returns response ∧
    resp_sessionAttributes response = None ∧
    resp_sessionAttributes response ≠ Some ∅.
Proof.
  split; [reflexivity|]. eexists. split; [vm_compute; reflexivity|].
  split; [reflexivity|discriminate].
Qed.

(** C5, amended: every response of the AccountOverview and
    ViewTransactionList handlers, whichever variant it is (ElicitSlot,
    Delegate, Close), carries the session attributes received at the start of
    the turn, passed through unmodified and never inspected: with other
    session attributes in the event the run is the same, queries included, but
    for the session attributes the response carries.  An absent
    [sessionAttributes] is carried as absent, it is not defaulted to an empty
    mapping.  In particular the Delegate branch returns the session
    attributes it read. *)
Theorem session_attributes_opaque (i : Intent) (db : Tables) (event : Event)
    (session : option (gmap string string)) :
  (∀ response,
     fst (run (handler i event) db) = Returns response →
     resp_sessionAttributes response = sessionAttributes event) ∧
  run (handler i (with_session event session)) db =
    (carry session (fst (run (handler i event) db)),
     snd (run (handler i event) db)).
Proof.
  destruct i; cbn [handler].
  - rewrite !AccountOverview_run. unfold AccountOverview_table.
    cbn [bot_name intent_name slots sessionAttributes invocationSource
         with_session].
    split; [intros response|];
      repeat (case_bool_decide || case_match); try done; by intros [= <-].
  - rewrite !TransactionList_run. unfold TransactionList_table.
    cbn [bot_name intent_name slots sessionAttributes invocationSource
         with_session].
    split; [intros response|];
      repeat (case_bool_decide || case_match); try done; by intros [= <-].
Qed.

(** An absent [sessionAttributes] comes back as it came, also in a Close. *)
Example absent_session_attributes_not_defaulted :
  fst (run (AccountOverview.lambda_handler unknown_customer_fulfillment_turn) bank) =
    Returns (close None "I could not find any accounts for you on our systems. Is there anything else I can help you with?").
Proof. vm_compute. reflexivity. Qed.

(** ** The CustomerIdentifier validators *)

(** The message a response carries, if any. *)
Definition message_of (response : Response) : option Message :=
  match dialogAction response with
  | ElicitSlot _ _ _ message => message
  | Delegate _ => None
  | Close _ message => Some message
  end.

(** C6, as stated, fails: the validator returns a bare [False] for a
    customer the store does not hold, and the response the handler builds
    from it carries no message. *)
Lemma invalid_customer_verdict_carries_no_message :
  slots unknown_customer_turn !! "CustomerIdentifier" = Some (Some "XYZ") ∧
  fst (run (AccountOverview.validate_customer_identifier (Some "XYZ")) bank) =
    Returns false ∧
  ∃ response,
    fst (run (AccountOverview.lambda_handler unknown_customer_turn) bank) =
      Returns response ∧
    message_of response = None.
Proof.
  split; [reflexivity|]. split; [vm_compute; reflexivity|].
  eexists. split; vm_compute; reflexivity.
Qed.

(** C6, amended: a CustomerIdentifier slot value that is present and
    non-empty is judged valid if and only if it exists in the customer
    reference store.  The verdict is a bare boolean: when it is False no
    message comes with it, and the response of the handler to the turn
    carries none. *)
Theorem customer_identifier_validity (db : Tables) (event : Event)
    (customer : string) :
  customer ≠ "" →
  bot_name event = "ACMEBankBot" →
  intent_name event = "AccountOverview" →
  invocationSource event = "DialogCodeHook" →
  slots event !! "CustomerIdentifier" = Some (Some customer) →
  ∃ verdict : bool,
    fst (run (AccountOverview.validate_customer_identifier (Some customer)) db) =
      Returns verdict ∧
    fst (run (TransactionList.validate_customer_identifier (Some customer)) db) =
      Returns verdict ∧
    (verdict = true ↔
     {| cust_CustomerIdentifier := customer |} ∈ ACMEBankCustomer db) ∧
    (verdict = false →
     ∃ response,
       fst (run (AccountOverview.lambda_handler event) db) = Returns response ∧
       message_of response = None).
Proof.
  intros _ Hbot Hintent Hsource Hslot.
  exists (customerExists db (Some customer)). unfold run at 1 2.
  rewrite TransactionList_validate_customer_identifier_run,
    validate_customer_identifier_run.
  split; [done|]. split; [done|]. split.
  - rewrite customerExists_true. split.
    + by intros (k & [= <-] & Hin).
    + intros Hin. by exists customer.
  - intros Hverdict. rewrite AccountOverview_run. unfold AccountOverview_table.
    identity_ok Hbot Hintent. rewrite Hslot, Hsource, Hverdict.
    rewrite bool_decide_true by done. by eexists.
Qed.

Lemma customer_identifier_validity_witness :
  ∃ verdict : bool,
    fst (run (AccountOverview.validate_customer_identifier (Some "XYZ")) bank) =
      Returns verdict ∧
    fst (run (TransactionList.validate_customer_identifier (Some "XYZ")) bank) =
      Returns verdict ∧
    (verdict = true ↔
     {| cust_CustomerIdentifier := "XYZ" |} ∈ ACMEBankCustomer bank) ∧
    (verdict = false →
     ∃ response,
       fst (run (AccountOverview.lambda_handler unknown_customer_turn) bank) =
         Returns response ∧
       message_of response = None).
Proof.
  apply (customer_identifier_validity bank unknown_customer_turn "XYZ");
    [discriminate | reflexivity..].
Defined.

(** ** What a fulfilled transaction list depends on *)

(** C10: the Close message of the ViewTransactionList handler depends only on
    the AccountIdentifier slot and on the transaction table: two turns that
    pass the identity checks, are not validation turns and agree on
    AccountIdentifier, run against stores with the same transaction table,
    both return Close with the same message content, whatever their
    CustomerIdentifier, session attributes and other tables are. *)
Theorem transaction_list_close_depends_on_account_only (db1 db2 : Tables)
    (event1 event2 : Event) :
  bot_name event1 = "ACMEBankBot" →
  bot_name event2 = "ACMEBankBot" →
  intent_name event1 = "ViewTransactionList" →
  intent_name event2 = "ViewTransactionList" →
  invocationSource event1 ≠ "DialogCodeHook" →
  invocationSource event2 ≠ "DialogCodeHook" →
  declares_all IntentViewTransactionList (slots event1) = true →
  declares_all IntentViewTransactionList (slots event2) = true →
  slot_value (slots event1) AccountIdentifier =
    slot_value (slots event2) AccountIdentifier →
  ACMEAccountTransaction db1 = ACMEAccountTransaction db2 →
  ∃ text : string,
    fst (run (TransactionList.lambda_handler event1) db1) =
      Returns {| resp_sessionAttributes := sessionAttributes event1;
                 dialogAction :=
                   Close "Fulfilled"
                     {| contentType := "PlainText"; content := text |} |} ∧
    fst (run (TransactionList.lambda_handler event2) db2) =
      Returns {| resp_sessionAttributes := sessionAttributes event2;
                 dialogAction :=
                   Close "Fulfilled"
                     {| contentType := "PlainText"; content := text |} |}.
Proof.
  intros Hbot1 Hbot2 Hintent1 Hintent2 Hsource1 Hsource2 Hall1 Hall2 Hacc Htx.
  exists (fulfillment_text IntentViewTransactionList db1 (slots event1)).
  pose proof (fulfillment_run IntentViewTransactionList db1 event1
                Hbot1 Hintent1 Hsource1 Hall1) as Hrun1.
  pose proof (fulfillment_run IntentViewTransactionList db2 event2
                Hbot2 Hintent2 Hsource2 Hall2) as Hrun2.
  cbn [handler] in Hrun1, Hrun2. rewrite Hrun1, Hrun2.
  split; [done|]. cbn [fst fulfillment_text]. unfold close, listTransactions.
  by rewrite Hacc, Htx.
Qed.

Definition other_bank : Tables :=
  {| ACMEBankCustomer := [];
     ACMEBankAccount := [];
     ACMEAccountTransaction := ACMEAccountTransaction bank |}.

Lemma transaction_list_close_depends_on_account_only_witness :
  ∃ text : string,
    fst (run (TransactionList.lambda_handler
                (turn "ACMEBankBot" "ViewTransactionList" "FulfillmentCodeHook"
                   (Some "CUS01") (Some "ACC1") None)) bank) =
      Returns {| resp_sessionAttributes := None;
                 dialogAction :=
                   Close "Fulfilled"
                     {| contentType := "PlainText"; content := text |} |} ∧
    fst (run (TransactionList.lambda_handler
                (turn "ACMEBankBot" "ViewTransactionList" "FulfillmentCodeHook"
                   None (Some "ACC1") (Some {[ "channel" := "web" ]}))) other_bank) =
      Returns {| resp_sessionAttributes := Some {[ "channel" := "web" ]};
                 dialogAction :=
                   Close "Fulfilled"
                     {| contentType := "PlainText"; content := text |} |}.
Proof.
  apply (transaction_list_close_depends_on_account_only bank other_bank
           (turn "ACMEBankBot" "ViewTransactionList" "FulfillmentCodeHook"
              (Some "CUS01") (Some "ACC1") None)
           (turn "ACMEBankBot" "ViewTransactionList" "FulfillmentCodeHook"
              None (Some "ACC1") (Some {[ "channel" := "web" ]})));
    try reflexivity; discriminate.
Defined.

(** * Further properties of the handlers *)

(** The validation query of a slot: the customer table for
    CustomerIdentifier, the account table by the exact pair for
    AccountIdentifier. *)
Definition validation_query (s : gmap string (option string)) (k : Slot) : Query :=
  match k with
  | CustomerIdentifier => customer_query (slot_value s CustomerIdentifier)
  | AccountIdentifier =>
      account_pair_query (slot_value s CustomerIdentifier)
        (slot_value s AccountIdentifier)
  end.

(** The event with another slot mapping, as the next turn brings it back. *)
Definition with_slots (event : Event) (s : gmap string (option string)) : Event :=
  {| bot_name := bot_name event; intent_name := intent_name event;
     slots := s; sessionAttributes := sessionAttributes event;
     invocationSource := invocationSource event |}.

Definition valid_turn : Event :=
  turn "ACMEBankBot" "ViewTransactionList" "DialogCodeHook"
    (Some "CUS01") (Some "ACC1") None.

Lemma find_none_forallb {A : Type} (p q : A → bool) (l : list A) :
  forallb (λ x, negb (p x) && q x) l = true ↔
  List.find p l = None ∧ List.find (λ x, negb (q x)) l = None.
Proof.
  induction l as [|x l IH]; [done|].
  cbn [forallb List.find]. rewrite andb_true_iff, IH.
  destruct (p x), (q x); simpl; intuition congruence.
Qed.

(** X4: a validation turn on which every required slot is present and valid
    is not handed back with a Delegate: the handler goes on to fetch the
    records and returns Close with the formatted text.  The queries sent are
    the validation query of each required slot, in declared order, then the
    one that fetches the records. *)
Theorem valid_validation_turn_is_fulfilled (i : Intent) (db : Tables)
    (event : Event) :
  bot_name event = "ACMEBankBot" →
  intent_name event = intent_name_of i →
  invocationSource event = "DialogCodeHook" →
  declares_all i (slots event) = true →
  forallb (λ k, negb (absent (slots event) k) && slot_valid db (slots event) k)
    (required_slots i) = true →
  run (handler i event) db =
    (Returns {| resp_sessionAttributes := sessionAttributes event;
                dialogAction :=
                  Close "Fulfilled"
                    {| contentType := "PlainText";
                       content := fulfillment_text i db (slots event) |} |},
     (validation_query (slots event) <$> required_slots i)
     ++ [fulfillment_query i (slots event)])%list.
Proof.
  intros Hbot Hintent Hsource Hall [Hpresent Hvalid]%find_none_forallb.
  rewrite (validation_run i db event Hbot Hintent Hsource Hall).
  by rewrite Hpresent, Hvalid.
Qed.

Lemma valid_validation_turn_is_fulfilled_witness :
  run (TransactionList.lambda_handler valid_turn) bank =
    (Returns {| resp_sessionAttributes := None;
                dialogAction :=
                  Close "Fulfilled"
                    {| contentType := "PlainText";
                       content := "Transaction #T1: outbound transfer of £20 on 2024-01-01. Is there anything else I can help you with?" |} |},
     [customer_query (Some "CUS01");
      account_pair_query (Some "CUS01") (Some "ACC1");
      transaction_query (Some "ACC1")]).
Proof.
  apply (valid_validation_turn_is_fulfilled IntentViewTransactionList bank
           valid_turn); reflexivity.
Defined.

(** X5: on a validation turn a Close response is returned only when every
    required slot is present and passed its validator: a validation turn
    never answers with account data for a customer the store does not hold,
    nor with transactions for an account that customer does not hold. *)
Theorem validation_close_only_if_valid (i : Intent) (db : Tables)
    (event : Event) (session : option (gmap string string))
    (state : string) (message : Message) :
  bot_name event = "ACMEBankBot" →
  intent_name event = intent_name_of i →
  invocationSource event = "DialogCodeHook" →
  declares_all i (slots event) = true →
  fst (run (handler i event) db) =
    Returns {| resp_sessionAttributes := session;
               dialogAction := Close state message |} →
  forallb (λ k, negb (absent (slots event) k) && slot_valid db (slots event) k)
    (required_slots i) = true.
Proof.
  intros Hbot Hintent Hsource Hall.
  rewrite (validation_run i db event Hbot Hintent Hsource Hall).
  rewrite find_none_forallb.
  destruct (List.find (absent _) _); [done|].
  by destruct (List.find (λ k, negb (slot_valid _ _ k)) _).
Qed.

Lemma validation_close_only_if_valid_witness :
  customerExists bank (Some "CUS01") = true ∧
  accountExists bank (Some "CUS01") (Some "ACC1") = true.
Proof.
  pose proof (validation_close_only_if_valid IntentViewTransactionList bank
                valid_turn None "Fulfilled"
                {| contentType := "PlainText";
                   content := "Transaction #T1: outbound transfer of £20 on 2024-01-01. Is there anything else I can help you with?" |}
                eq_refl eq_refl eq_refl eq_refl eq_refl) as Hvalid.
  cbn [required_slots forallb slot_valid] in Hvalid.
  apply andb_true_iff in Hvalid as [[_ Hcustomer]%andb_true_iff Hrest].
  apply andb_true_iff in Hrest as [[_ Haccount]%andb_true_iff _].
  split; [exact Hcustomer | exact Haccount].
Defined.

(** A slot mapping that lacks the AccountIdentifier key altogether. *)
Definition turn_without_account_key : Event :=
  {| bot_name := "ACMEBankBot"; intent_name := "ViewTransactionList";
     slots := {[ "CustomerIdentifier" := Some "CUS01" ]};
     sessionAttributes := None; invocationSource := "FulfillmentCodeHook" |}.

(** X6: when the slot mapping of a turn that passes the identity checks lacks
    the key of a required slot, the handler raises KeyError for the first such
    slot in declared order, in either phase and before any query is sent. *)
Theorem missing_slot_key_raises (i : Intent) (db : Tables) (event : Event)
    (k : Slot) :
  bot_name event = "ACMEBankBot" →
  intent_name event = intent_name_of i →
  List.find (λ k, bool_decide (slots event !! slot_name k = None))
    (required_slots i) = Some k →
  run (handler i event) db = (Raises (KeyError (slot_name k)), []).
Proof.
  intros Hbot Hintent Hfind. destruct i; cbn [handler].
  - rewrite AccountOverview_run. unfold AccountOverview_table.
    identity_ok Hbot Hintent.
    cbn [required_slots List.find slot_name] in Hfind.
    case_bool_decide as Hkey; [|done]. injection Hfind as <-. by rewrite Hkey.
  - rewrite TransactionList_run. unfold TransactionList_table.
    identity_ok Hbot Hintent.
    cbn [required_slots List.find slot_name] in Hfind.
    case_bool_decide as Hcustomer.
    { injection Hfind as <-. by rewrite Hcustomer. }
    case_bool_decide as Haccount; [|done]. injection Hfind as <-.
    rewrite Haccount. by destruct (slots event !! "CustomerIdentifier").
Qed.

Lemma missing_slot_key_raises_witness :
  run (TransactionList.lambda_handler turn_without_account_key) bank =
    (Raises (KeyError "AccountIdentifier"), []).
Proof.
  apply (missing_slot_key_raises IntentViewTransactionList bank
           turn_without_account_key AccountIdentifier); reflexivity.
Defined.

(** X8: a turn costs at most one query per required slot plus one: at most
    two for AccountOverview and three for ViewTransactionList, whatever the
    event and the store. *)
Theorem query_budget (i : Intent) (db : Tables) (event : Event) :
  (List.length (snd (run (handler i event) db))
   ≤ S (List.length (required_slots i)))%nat.
Proof.
  destruct i; cbn [handler required_slots List.length].
  - rewrite AccountOverview_run. unfold AccountOverview_table.
    repeat (case_bool_decide || case_match); simpl; lia.
  - rewrite TransactionList_run. unfold TransactionList_table.
    repeat (case_bool_decide || case_match); simpl; lia.
Qed.

(** X9: a response never invents or alters a slot value.  The slot mapping of
    an ElicitSlot is the event's mapping, and the slot it names is a required
    one; the slot mapping of a Delegate is the event's mapping with one
    required slot cleared. *)
Theorem response_slots_only_cleared (i : Intent) (db : Tables) (event : Event)
    (response : Response) :
  fst (run (handler i event) db) = Returns response →
  match dialogAction response with
  | ElicitSlot _ slots' slot _ =>
      slots' = slots event ∧ ∃ k, k ∈ required_slots i ∧ slot = Some (slot_name k)
  | Delegate slots' =>
      ∃ k, k ∈ required_slots i ∧ slots' = <[slot_name k := None]> (slots event)
  | Close _ _ => True
  end.
Proof.
  intros Hrun. destruct i; cbn [handler required_slots] in *.
  - rewrite AccountOverview_run in Hrun. unfold AccountOverview_table in Hrun.
    repeat (case_bool_decide || case_match); simplify_eq/=;
      first [done
            | split; [done|]; exists CustomerIdentifier; split; [set_solver|done]
            | exists CustomerIdentifier; split; [set_solver|done]].
  - rewrite TransactionList_run in Hrun. unfold TransactionList_table in Hrun.
    repeat (case_bool_decide || case_match); simplify_eq/=;
      first [done
            | split; [done|]; exists CustomerIdentifier; split; [set_solver|done]
            | split; [done|]; exists AccountIdentifier; split; [set_solver|done]
            | exists CustomerIdentifier; split; [set_solver|done]
            | exists AccountIdentifier; split; [set_solver|done]].
Qed.

Lemma response_slots_only_cleared_witness :
  ∃ k, k ∈ [CustomerIdentifier; AccountIdentifier] ∧
       <["AccountIdentifier" := None]> (slots unknown_account_turn) =
         <[slot_name k := None]> (slots unknown_account_turn).
Proof.
  apply (response_slots_only_cleared IntentViewTransactionList bank
           unknown_account_turn
           {| resp_sessionAttributes := Some {[ "channel" := "web" ]};
              dialogAction :=
                Delegate (<["AccountIdentifier" := None]>
                            (slots unknown_account_turn)) |}).
  reflexivity.
Defined.

(** ** From one turn to the next *)

(** X10: the Delegate of a rejected slot and the next turn compose.  When a
    validation turn ends with a slot cleared, a validation turn that comes
    back with the delegated slot mapping is answered, without any query, by an
    ElicitSlot for exactly that slot. *)
Theorem cleared_slot_is_elicited_next_turn (i : Intent) (db : Tables)
    (event : Event) (k : Slot) :
  bot_name event = "ACMEBankBot" →
  intent_name event = intent_name_of i →
  invocationSource event = "DialogCodeHook" →
  declares_all i (slots event) = true →
  List.find (absent (slots event)) (required_slots i) = None →
  List.find (λ k, negb (slot_valid db (slots event) k)) (required_slots i) = Some k →
  fst (run (handler i event) db) =
    Returns {| resp_sessionAttributes := sessionAttributes event;
               dialogAction :=
                 Delegate (<[slot_name k := None]> (slots event)) |} ∧
  run (handler i (with_slots event (<[slot_name k := None]> (slots event)))) db =
    (Returns {| resp_sessionAttributes := sessionAttributes event;
                dialogAction :=
                  ElicitSlot (intent_name event)
                    (<[slot_name k := None]> (slots event))
                    (Some (slot_name k)) None |}, []).
Proof.
  intros Hbot Hintent Hsource Hall Hpresent Hinvalid. split.
  { rewrite (validation_run i db event Hbot Hintent Hsource Hall).
    by rewrite Hpresent, Hinvalid. }
  assert (declares_all i (<[slot_name k := None]> (slots event)) = true) as Hall'.
  { unfold declares_all in *. rewrite forallb_forall in *.
    intros k' Hk'. specialize (Hall k' Hk').
    apply bool_decide_eq_true. apply bool_decide_eq_true in Hall.
    destruct (decide (slot_name k = slot_name k')) as [->|Hne].
    - rewrite lookup_insert_eq. by eexists.
    - by rewrite lookup_insert_ne. }
  assert (List.find (absent (<[slot_name k := None]> (slots event)))
            (required_slots i) = Some k) as Hfind.
  { apply find_some in Hinvalid as [Hk _].
    unfold absent, slot_value in *.
    destruct i; cbn [required_slots List.find In] in *.
    - destruct Hk as [<-|[]]. cbn [slot_name]. by rewrite lookup_insert_eq.
    - destruct Hk as [<-|[<-|[]]]; cbn [slot_name].
      + by rewrite lookup_insert_eq.
      + rewrite (lookup_insert_ne _ "AccountIdentifier" "CustomerIdentifier")
          by done.
        rewrite lookup_insert_eq. cbn [slot_name] in Hpresent.
        destruct (bool_decide (slots event !! "CustomerIdentifier" ≫= id = None));
          [done|reflexivity]. }
  rewrite (validation_run i db (with_slots event _) Hbot Hintent Hsource Hall').
  cbn [slots with_slots]. by rewrite Hfind.
Qed.

Lemma cleared_slot_is_elicited_next_turn_witness :
  fst (run (TransactionList.lambda_handler unknown_account_turn) bank) =
    Returns {| resp_sessionAttributes := Some {[ "channel" := "web" ]};
               dialogAction :=
                 Delegate (<["AccountIdentifier" := None]>
                             (slots unknown_account_turn)) |} ∧
  run (TransactionList.lambda_handler
         (with_slots unknown_account_turn
            (<["AccountIdentifier" := None]> (slots unknown_account_turn))))
      bank =
    (Returns {| resp_sessionAttributes := Some {[ "channel" := "web" ]};
                dialogAction :=
                  ElicitSlot "ViewTransactionList"
                    (<["AccountIdentifier" := None]> (slots unknown_account_turn))
                    (Some "AccountIdentifier") None |}, []).
Proof.
  apply (cleared_slot_is_elicited_next_turn IntentViewTransactionList bank
           unknown_account_turn AccountIdentifier); reflexivity.
Defined.

(** ** The account validator *)

Lemma accountExists_true db customer account :
  accountExists db customer account = true ↔
  ∃ c a balance,
    customer = Some c ∧ account = Some a ∧
    {| acc_CustomerIdentifier := c; acc_AccountIdentifier := a;
       AccountBalance := balance |} ∈ ACMEBankAccount db.
Proof.
  unfold accountExists. rewrite existsb_exists. split.
  - intros ([c a balance] & Hin & Heq).
    apply andb_true_iff in Heq as [Hc%key_eq_true Ha%key_eq_true].
    exists c, a, balance. repeat split; [done..|]. by apply list_elem_of_In.
  - intros (c & a & balance & -> & -> & Hin).
    eexists. split; [by apply list_elem_of_In|].
    apply andb_true_iff. split; by apply key_eq_true.
Qed.

(** X11: [validate_account_identifier] sends one query, on the account table
    with both key conditions, and answers True if and only if both values are
    present and the account table holds a row with exactly that customer
    identifier and that account identifier: an account held by another
    customer is not accepted. *)
Theorem validate_account_identifier_verdict (db : Tables)
    (customer account : option string) :
  ∃ verdict : bool,
    run (TransactionList.validate_account_identifier customer account) db =
      (Returns verdict,
       [ {| TableName := "ACMEBankAccount";
            KeyConditionExpression :=
              [("CustomerIdentifier", customer); ("AccountIdentifier", account)] |} ]) ∧
    (verdict = true ↔
     ∃ c a balance,
       customer = Some c ∧ account = Some a ∧
       {| acc_CustomerIdentifier := c; acc_AccountIdentifier := a;
          AccountBalance := balance |} ∈ ACMEBankAccount db).
Proof.
  exists (accountExists db customer account). unfold run.
  rewrite validate_account_identifier_run. split; [done|].
  apply accountExists_true.
Qed.

(** ** The formatted texts *)

(** X12: whatever the store holds, the text of either formatter ends with the
    question "Is there anything else I can help you with?", in the empty case
    as well as after the last row. *)
Theorem formatted_text_ends_with_question (db : Tables) (value : option string) :
  (∃ lead : string,
     fst (run (AccountOverview.get_account_overview value) db) =
       Returns (lead +:+ "Is there anything else I can help you with?")) ∧
  (∃ lead : string,
     fst (run (TransactionList.get_transaction_summary value) db) =
       Returns (lead +:+ "Is there anything else I can help you with?")).
Proof.
  unfold run. rewrite get_account_overview_run, get_transaction_summary_run.
  cbn [fst]. split.
  - destruct (listAccounts db value) as [|a l].
    + by exists "I could not find any accounts for you on our systems. ".
    + exists (String.concat ", " (account_description <$> a :: l) +:+ ". ").
      cbn [account_overview_text]. unfold joined. by rewrite append_assoc.
  - destruct (listTransactions db value) as [|t l].
    + by exists "I could not find any transactions for this account on our systems. ".
    + exists (String.concat ", " (transaction_description <$> t :: l) +:+ ". ").
      cbn [transaction_summary_text]. unfold joined. by rewrite append_assoc.
Qed.

(** ** Instances of the earlier lemmas *)

Lemma absent_slot_elicited_witness :
  run (TransactionList.lambda_handler unknown_customer_no_account_turn) bank =
    (Returns {| resp_sessionAttributes := None;
                dialogAction :=
                  ElicitSlot "ViewTransactionList"
                    (slots unknown_customer_no_account_turn)
                    (Some "AccountIdentifier") None |}, []).
Proof.
  apply (absent_slot_elicited IntentViewTransactionList bank
           unknown_customer_no_account_turn AccountIdentifier); reflexivity.
Defined.

Lemma identity_mismatch_raises_witness :
  ∃ msg,
    run (AccountOverview.lambda_handler
           (turn "ACMEBankBot" "ViewTransactionList" "DialogCodeHook"
              (Some "CUS01") None None)) bank =
      (Raises (Exception msg), []).
Proof.
  apply (identity_mismatch_raises IntentAccountOverview bank
           (turn "ACMEBankBot" "ViewTransactionList" "DialogCodeHook"
              (Some "CUS01") None None)).
  right. discriminate.
Defined.

Lemma session_attributes_verbatim_witness :
  resp_sessionAttributes
    {| resp_sessionAttributes := Some {[ "channel" := "web" ]};
       dialogAction :=
         Delegate (<["AccountIdentifier" := None]> (slots unknown_account_turn)) |} =
  sessionAttributes unknown_account_turn.
Proof.
  apply (session_attributes_verbatim IntentViewTransactionList bank
           unknown_account_turn).
  reflexivity.
Defined.
